(** * PolygonArea: incremental geodesic polygon area and perimeter

    A shallow embedding of [include/GeographicLib/PolygonArea.hpp]
    (class template [PolygonAreaT<GeodType>]) together with the properties
    its specification states about it.

    Numbers.  [Math::real] is modelled by exact rationals extended with one
    not-a-number value: arithmetic is exact (no rounding), every arithmetic
    operation with a NaN operand is NaN, and every comparison with a NaN
    operand is false, as for IEEE numbers.  Infinities and rounding are
    outside the model.  [int] and [unsigned] are modelled by [Z]; [unsigned]
    values wrap around at 2^32. *)

From Stdlib Require Import ZArith QArith Qround Qabs Bool List Lia Lqa.
Import ListNotations.

(* ================================================================== *)
(** ** Math: the numeric type and the two angle helpers *)
(* ================================================================== *)

Module Math.

(** [Math::real]: a rational number or NaN. *)
Inductive real : Type :=
| Num (q : Q)
| NaN.

Definition lift1 (f : Q -> Q) (x : real) : real :=
  match x with
  | Num a => Num (f a)
  | NaN => NaN
  end.

Definition lift2 (f : Q -> Q -> Q) (x y : real) : real :=
  match x, y with
  | Num a, Num b => Num (f a b)
  | _, _ => NaN
  end.

Definition add : real -> real -> real := lift2 Qplus.
Definition sub : real -> real -> real := lift2 Qminus.
Definition mul : real -> real -> real := lift2 Qmult.
Definition neg : real -> real := lift1 Qopp.

(** Division; a zero divisor gives NaN (the model has no infinities). *)
Definition div (x y : real) : real :=
  match x, y with
  | Num a, Num b => if Qeq_bool b 0 then NaN else Num (a / b)
  | _, _ => NaN
  end.

(** The comparison operators of the source, as boolean tests. *)
Definition ltb (x y : real) : bool :=
  match x, y with
  | Num a, Num b => match a ?= b with Lt => true | _ => false end
  | _, _ => false
  end.

Definition leb (x y : real) : bool :=
  match x, y with
  | Num a, Num b => match a ?= b with Gt => false | _ => true end
  | _, _ => false
  end.

Definition gtb (x y : real) : bool := ltb y x.
Definition geb (x y : real) : bool := leb y x.

Definition isnan (x : real) : bool :=
  match x with
  | NaN => true
  | Num _ => false
  end.

(** The same order as propositions, for statements. *)
Definition lt (x y : real) : Prop :=
  match x, y with
  | Num a, Num b => (a < b)%Q
  | _, _ => False
  end.

Definition le (x y : real) : Prop :=
  match x, y with
  | Num a, Num b => (a <= b)%Q
  | _, _ => False
  end.

(** Numeric equality ([==] of the source): false on NaN. *)
Definition eq (x y : real) : Prop :=
  match x, y with
  | Num a, Num b => (a == b)%Q
  | _, _ => False
  end.

Definition of_Z (z : Z) : real := Num (inject_Z z).

(** Modelled from the spec: the interval of [AngNormalize].  The
    representative of [a] modulo 360 in [-180, 180). *)
Definition wrap_lo (a : Q) : Q :=
  (a - 360 * inject_Z (Qfloor ((a + 180) / 360)))%Q.

(** Modelled from the spec: the interval of [AngDiff].  The representative
    of [d] modulo 360 in (-180, 180]. *)
Definition wrap_hi (d : Q) : Q :=
  (d - 360 * inject_Z (Qceiling ((d - 180) / 360)))%Q.

(** Modelled from the spec: [Math::AngNormalize] of Math.hpp, which is not
    part of the sources at hand.  "Normalize both longitudes to
    [-180, 180)". *)
Definition AngNormalize (x : real) : real := lift1 wrap_lo x.

(** Modelled from the spec: [Math::AngDiff] of Math.hpp, which is not part
    of the sources at hand.  "the signed shortest angular difference
    lon12 = AngDiff(lon1, lon2) in (-180, 180]": the difference
    [y - x] brought into that interval. *)
Definition AngDiff (x y : real) : real :=
  lift2 (fun a b => wrap_hi (b - a)) x y.

(** Absolute value. *)
Definition abs : real -> real := lift1 Qabs.

(** Modelled from the spec: the rounding used by [remainder] below.  The
    integer nearest to [q], a tie going to the even neighbour. *)
Definition round_even (q : Q) : Z :=
  let f := Qfloor q in
  match (q - inject_Z f ?= 1 # 2)%Q with
  | Lt => f
  | Gt => (f + 1)%Z
  | Eq => if Z.even f then f else (f + 1)%Z
  end.

(** Modelled from the spec: the reduction "modulo" a divisor that leaves a
    remainder of "magnitude <= half" the divisor (Math.hpp is not part of
    the sources at hand): [x] minus the multiple of [y] nearest to it.  A
    zero divisor gives NaN. *)
Definition remainder (x y : real) : real :=
  match x, y with
  | Num a, Num b =>
      if Qeq_bool b 0 then NaN
      else Num (a - b * inject_Z (round_even (a / b)))
  | _, _ => NaN
  end.

End Math.

Declare Scope real_scope.
Delimit Scope real_scope with real.
Bind Scope real_scope with Math.real.

Abbreviation real := Math.real.
Notation "x + y" := (Math.add x y) : real_scope.
Notation "x - y" := (Math.sub x y) : real_scope.
Notation "x * y" := (Math.mul x y) : real_scope.
Notation "x / y" := (Math.div x y) : real_scope.
Notation "- x" := (Math.neg x) : real_scope.
Notation "x <? y" := (Math.ltb x y) : real_scope.
Notation "x <=? y" := (Math.leb x y) : real_scope.
Notation "x >? y" := (Math.gtb x y) : real_scope.
Notation "x >=? y" := (Math.geb x y) : real_scope.
Notation "x < y" := (Math.lt x y) : real_scope.
Notation "x <= y" := (Math.le x y) : real_scope.
Notation "x == y" := (Math.eq x y) : real_scope.

(** Integer literals of the source used at type [real]. *)
Coercion Math.of_Z : Z >-> Math.real.

(* ================================================================== *)
(** ** The meridian-crossing detector *)
(* ================================================================== *)

Open Scope Z_scope.

(** [PolygonAreaT::transit] (PolygonArea.hpp, lines 73-84). *)
Definition transit (lon1 lon2 : real) : Z :=
  (* Return 1 or -1 if crossing prime meridian in east or west direction.
     Otherwise return zero. *)
  let lon1 := Math.AngNormalize lon1 in
  let lon2 := Math.AngNormalize lon2 in
  let lon12 := Math.AngDiff lon1 lon2 in
  let cross :=
    if ((lon1 <? 0) && (lon2 >=? 0) && (lon12 >? 0))%real then 1
    else if ((lon2 <? 0) && (lon1 >=? 0) && (lon12 <? 0))%real then -1
         else 0 in
  cross.

(** The detector as the specification words it: on the normalized
    longitudes [lon1], [lon2] and their difference [lon12], the result is
    +1 when [lon1 < 0 <= lon2] and [lon12 > 0], -1 when [lon2 < 0 <= lon1]
    and [lon12 < 0], and 0 otherwise. *)
Inductive Transit_spec (lon1 lon2 : real) : Z -> Prop :=
| Transit_east :
    let n1 := Math.AngNormalize lon1 in
    let n2 := Math.AngNormalize lon2 in
    let lon12 := Math.AngDiff n1 n2 in
    (n1 < 0)%real -> (0 <= n2)%real -> (0 < lon12)%real ->
    Transit_spec lon1 lon2 1
| Transit_west :
    let n1 := Math.AngNormalize lon1 in
    let n2 := Math.AngNormalize lon2 in
    let lon12 := Math.AngDiff n1 n2 in
    (n2 < 0)%real -> (0 <= n1)%real -> (lon12 < 0)%real ->
    Transit_spec lon1 lon2 (-1)
| Transit_none :
    let n1 := Math.AngNormalize lon1 in
    let n2 := Math.AngNormalize lon2 in
    let lon12 := Math.AngDiff n1 n2 in
    ~ ((n1 < 0)%real /\ (0 <= n2)%real /\ (0 < lon12)%real) ->
    ~ ((n2 < 0)%real /\ (0 <= n1)%real /\ (lon12 < 0)%real) ->
    Transit_spec lon1 lon2 0.

(* ================================================================== *)
(** ** The compensated accumulator *)
(* ================================================================== *)

Module Accumulator.

(** Modelled from the spec: class [Accumulator] of Accumulator.hpp, which is
    not part of the sources at hand.  The specification describes a running
    total held as a major value plus a compensation term that "captures the
    rounding error of each addition".  Arithmetic is exact in this model, so
    that error is zero at every step and the accumulator is its running
    total. *)
Record t : Type := { total : real }.

(** Modelled from the spec: "an accumulator can be assigned a plain
    scalar". *)
Definition of_real (y : real) : t := {| total := y |}.

(** Modelled from the spec: [Add(value)] "incorporates value into the
    running total". *)
Definition Add (a : t) (y : real) : t := {| total := (total a + y)%real |}.

(** Modelled from the spec: [Value()], the current total. *)
Definition Value (a : t) : real := total a.

(** Modelled from the spec: the value the total would have after adding
    [y]; the accumulator itself is untouched (the sum is formed on a
    copy). *)
Definition Sum (a : t) (y : real) : real := Value (Add a y).

(** Modelled from the spec: [Negated()]. *)
Definition Negated (a : t) : t := {| total := (- total a)%real |}.

(** Modelled from the spec: [Remainder(divisor)], the total reduced modulo
    the divisor. *)
Definition Remainder (a : t) (y : real) : t :=
  {| total := Math.remainder (total a) y |}.

End Accumulator.

(* ================================================================== *)
(** ** The geodesic engine *)
(* ================================================================== *)

(** [unsigned]: increments wrap around. *)
Definition UINT_MOD : Z := 2 ^ 32.
Definition uincr (n : Z) : Z := (n + 1) mod UINT_MOD.

(** Modelled from the spec: the template parameter [GeodType], what the
    class consumes from the geodesic engine (Geodesic.hpp is not part of the
    sources at hand).  [EllipsoidArea], [MajorRadius], [Flattening] and the
    capability constants are the members PolygonArea.hpp uses; the two
    solvers are the specification's [Inverse], returning the distance [s12]
    and the area differential [S12], and [Direct], returning the destination
    [lat2], [lon2] and [S12].  The engine is a parameter of everything
    below: no property depends on what it computes. *)
Record GeodType : Type := {
  EllipsoidArea : real;
  MajorRadius : real;
  Flattening : real;
  NONE : Z;
  LATITUDE : Z;
  LONGITUDE : Z;
  DISTANCE : Z;
  AREA : Z;
  Inverse : real -> real -> real -> real -> Z -> real * real;
  Direct : real -> real -> real -> real -> Z -> real * real * real
}.

(* ================================================================== *)
(** ** PolygonAreaT *)
(* ================================================================== *)

(** The data members of [PolygonAreaT] (PolygonArea.hpp, lines 65-72). *)
Record PolygonAreaT : Type := {
  _earth : GeodType;
  _area0 : real;                (* Full ellipsoid area *)
  _polyline : bool;             (* Assume polyline (don't close and skip area) *)
  _mask : Z;
  _num : Z;
  _crossings : Z;
  _areasum : Accumulator.t;
  _perimetersum : Accumulator.t;
  _lat0 : real;
  _lon0 : real;
  _lat1 : real;
  _lon1 : real
}.

(** The two reference parameters [perimeter] and [area] of [Compute] and the
    [Test*] functions: the caller's variables, passed in with their contents
    before the call and returned with their contents after it. *)
Record outputs : Type := { perimeter : real; area : real }.

(** [PolygonAreaT::Clear] (lines 105-111). *)
Definition Clear (p : PolygonAreaT) : PolygonAreaT :=
  {| _earth := _earth p;
     _area0 := _area0 p;
     _polyline := _polyline p;
     _mask := _mask p;
     _num := 0;
     _crossings := 0;
     _areasum := Accumulator.of_real 0;
     _perimetersum := Accumulator.of_real 0;
     _lat0 := Math.NaN;
     _lon0 := Math.NaN;
     _lat1 := Math.NaN;
     _lon1 := Math.NaN |}.

(** The constructor (lines 94-100).  [_mask] is an [unsigned] (line 68):
    the value stored is the combination of the capability constants reduced
    modulo 2^32.  The members the constructor does not initialise are all
    assigned by [Clear]; the values given to them here are never read. *)
Definition PolygonAreaT_ctor (earth : GeodType) (polyline : bool) : PolygonAreaT :=
  Clear
    {| _earth := earth;
       _area0 := EllipsoidArea earth;
       _polyline := polyline;
       _mask := Z.lor (Z.lor (Z.lor (LATITUDE earth) (LONGITUDE earth))
                             (DISTANCE earth))
                      (if polyline then NONE earth else AREA earth)
                mod UINT_MOD;
       _num := 0;
       _crossings := 0;
       _areasum := Accumulator.of_real 0;
       _perimetersum := Accumulator.of_real 0;
       _lat0 := 0; _lon0 := 0; _lat1 := 0; _lon1 := 0 |}.

(** [PolygonAreaT::CurrentPoint] (lines 246-247). *)
Definition CurrentPoint (p : PolygonAreaT) : real * real :=
  (_lat1 p, _lon1 p).

(** [PolygonAreaT::MajorRadius] and [PolygonAreaT::Flattening]
    (lines 229, 235). *)
Definition PolygonAreaT_MajorRadius (p : PolygonAreaT) : real :=
  MajorRadius (_earth p).
Definition PolygonAreaT_Flattening (p : PolygonAreaT) : real :=
  Flattening (_earth p).

(** Modelled from the spec: what one new edge does to the persistent state,
    the step shared by [AddPoint] and [AddEdge] once the engine has answered
    ("accumulates distance and area differential exactly as in AddPoint"):
    the distance goes into the perimeter sum, the area differential into the
    area sum in polygon mode, the crossing count is updated between the old
    and the new longitude, the current vertex advances and the vertex count
    is incremented. *)
Definition advance (p : PolygonAreaT) (s12 S12 lat lon : real) : PolygonAreaT :=
  {| _earth := _earth p;
     _area0 := _area0 p;
     _polyline := _polyline p;
     _mask := _mask p;
     _num := uincr (_num p);
     _crossings := _crossings p + transit (_lon1 p) lon;
     _areasum := if _polyline p then _areasum p
                 else Accumulator.Add (_areasum p) S12;
     _perimetersum := Accumulator.Add (_perimetersum p) s12;
     _lat0 := _lat0 p;
     _lon0 := _lon0 p;
     _lat1 := lat;
     _lon1 := lon |}.

(** Modelled from the spec: [PolygonAreaT::AddPoint], declared at line 122;
    its body (PolygonArea.cpp) is not part of the sources at hand. *)
Definition AddPoint (p : PolygonAreaT) (lat lon : real) : PolygonAreaT :=
  let lon := Math.AngNormalize lon in
  if _num p =? 0 then
    {| _earth := _earth p;
       _area0 := _area0 p;
       _polyline := _polyline p;
       _mask := _mask p;
       _num := 1;
       _crossings := _crossings p;
       _areasum := _areasum p;
       _perimetersum := _perimetersum p;
       _lat0 := lat;
       _lon0 := lon;
       _lat1 := lat;
       _lon1 := lon |}
  else
    let '(s12, S12) := Inverse (_earth p) (_lat1 p) (_lon1 p) lat lon (_mask p) in
    advance p s12 S12 lat lon.

(** Modelled from the spec: [PolygonAreaT::AddEdge], declared at line 134
    ("This does nothing if no points have been added yet"); its body
    (PolygonArea.cpp) is not part of the sources at hand. *)
Definition AddEdge (p : PolygonAreaT) (azi s : real) : PolygonAreaT :=
  if _num p =? 0 then p
  else
    let '(lat, lon, S12) := Direct (_earth p) (_lat1 p) (_lon1 p) azi s (_mask p) in
    advance p s S12 lat lon.

(** Modelled from the spec: the area differential sum of the closed loop
    brought to a signed area.  "reduce the closed area differential sum modulo the full ellipsoid
    surface area, using the total crossing count [...]: each net crossing
    pair contributes a full surface area adjustment" (so one crossing
    contributes half of it), then "if reverse is true, flip the sign". *)
Definition signed_area (area0 closed : real) (crossings : Z) (reverse : bool) : real :=
  let reduced :=
    Math.remainder (closed + Math.of_Z crossings * (area0 / 2))%real area0 in
  if reverse then (- reduced)%real else reduced.

(** Modelled from the spec: the last step of the area report.  "If sign is
    true, report the signed area directly [...].  If sign is
    false, report a non-negative area: if the signed result is negative,
    report the complement (fullSurfaceArea - |signed area|) instead". *)
Definition report_area (area0 : real) (sign : bool) (a : real) : real :=
  if sign then a
  else if (a <? 0)%real then (area0 - Math.abs a)%real
       else a.





(** Modelled from the spec: [PolygonAreaT::Compute], declared at lines
    150-151; its body (PolygonArea.cpp) is not part of the sources at hand.
    Returns the number of points and the contents of the two output
    variables. *)
Definition Compute (p : PolygonAreaT) (reverse sign : bool) (o : outputs)
  : Z * outputs :=
  if _num p <? 2 then
    (_num p, {| perimeter := 0;
                area := if _polyline p then area o else 0 |})
  else if _polyline p then
    (_num p, {| perimeter := Accumulator.Value (_perimetersum p);
                area := area o |})
  else
    let '(s12, S12) :=
      Inverse (_earth p) (_lat1 p) (_lon1 p) (_lat0 p) (_lon0 p) (_mask p) in
    let tempsum := Accumulator.Add (_areasum p) S12 in
    let crossings := _crossings p + transit (_lon1 p) (_lon0 p) in
    (_num p,
     {| perimeter := Accumulator.Sum (_perimetersum p) s12;
        area := report_area (_area0 p) sign
                  (signed_area (_area0 p) (Accumulator.Value tempsum)
                               crossings reverse) |}).

(** Modelled from the spec: [PolygonAreaT::TestPoint], declared [const] at
    lines 179-180; its body (PolygonArea.cpp) is not part of the sources at
    hand.  The tentative vertex and the closing edge are folded into local
    values with ordinary addition. *)
Definition TestPoint (p : PolygonAreaT) (lat lon : real) (reverse sign : bool)
  (o : outputs) : Z * outputs :=
  let num := uincr (_num p) in
  if _num p =? 0 then
    (num, {| perimeter := 0;
             area := if _polyline p then area o else 0 |})
  else
    let '(s12, S12) :=
      Inverse (_earth p) (_lat1 p) (_lon1 p) lat lon (_mask p) in
    let perimeter1 := (Accumulator.Value (_perimetersum p) + s12)%real in
    if _polyline p then
      (num, {| perimeter := perimeter1; area := area o |})
    else
      let tempsum := (Accumulator.Value (_areasum p) + S12)%real in
      let crossings := _crossings p + transit (_lon1 p) lon in
      let '(s12c, S12c) :=
        Inverse (_earth p) lat lon (_lat0 p) (_lon0 p) (_mask p) in
      let tempsum := (tempsum + S12c)%real in
      let crossings := crossings + transit lon (_lon0 p) in
      (num,
       {| perimeter := (perimeter1 + s12c)%real;
          area := report_area (_area0 p) sign
                    (signed_area (_area0 p) tempsum crossings reverse) |}).

(** Modelled from the spec: [PolygonAreaT::TestEdge], declared [const] at
    lines 207-208; its body (PolygonArea.cpp) is not part of the sources at
    hand.  With no current vertex there is nothing to extend, as for
    [AddEdge], and the result is that of the empty shape. *)
Definition TestEdge (p : PolygonAreaT) (azi s : real) (reverse sign : bool)
  (o : outputs) : Z * outputs :=
  if _num p =? 0 then
    (_num p, {| perimeter := 0;
                area := if _polyline p then area o else 0 |})
  else
    let num := uincr (_num p) in
    let '(lat, lon, S12) :=
      Direct (_earth p) (_lat1 p) (_lon1 p) azi s (_mask p) in
    let perimeter1 := (Accumulator.Value (_perimetersum p) + s)%real in
    if _polyline p then
      (num, {| perimeter := perimeter1; area := area o |})
    else
      let tempsum := (Accumulator.Value (_areasum p) + S12)%real in
      let crossings := _crossings p + transit (_lon1 p) lon in
      let '(s12c, S12c) :=
        Inverse (_earth p) lat lon (_lat0 p) (_lon0 p) (_mask p) in
      let tempsum := (tempsum + S12c)%real in
      let crossings := crossings + transit lon (_lon0 p) in
      (num,
       {| perimeter := (perimeter1 + s12c)%real;
          area := report_area (_area0 p) sign
                    (signed_area (_area0 p) tempsum crossings reverse) |}).

(** [PolygonAreaT::TestCompute] (lines 215-218): the old name for
    [TestPoint]. *)
Definition TestCompute (p : PolygonAreaT) (lat lon : real) (reverse sign : bool)
  (o : outputs) : Z * outputs :=
  TestPoint p lat lon reverse sign o.

(* ================================================================== *)
(** ** Calls on an instance *)
(* ================================================================== *)

(** A member function call takes the instance and gives back a result
    together with the instance after the call.  A [const] member function
    gives the instance back as it received it. *)
Definition method (A : Type) : Type := PolygonAreaT -> A * PolygonAreaT.

Definition const_method {A : Type} (f : PolygonAreaT -> A) : method A :=
  fun p => (f p, p).

(** The preview calls, with their arguments. *)
Inductive preview : Type :=
| CallTestPoint (lat lon : real) (reverse sign : bool)
| CallTestEdge (azi s : real) (reverse sign : bool).

Definition call_preview (c : preview) (o : outputs) : method (Z * outputs) :=
  match c with
  | CallTestPoint lat lon reverse sign =>
      const_method (fun p => TestPoint p lat lon reverse sign o)
  | CallTestEdge azi s reverse sign =>
      const_method (fun p => TestEdge p azi s reverse sign o)
  end.

Definition call_Compute (reverse sign : bool) (o : outputs) : method (Z * outputs) :=
  const_method (fun p => Compute p reverse sign o).

(** A run of preview calls, each writing to the same two output variables;
    gives the results in call order. *)
Fixpoint call_previews (cs : list preview) (o : outputs)
  : method (list (Z * outputs)) :=
  fun p =>
    match cs with
    | [] => ([], p)
    | c :: cs' =>
        let '(r, p1) := call_preview c o p in
        let '(rs, p2) := call_previews cs' (snd r) p1 in
        (r :: rs, p2)
    end.

(* ================================================================== *)
(** ** A small engine to run the definitions on *)
(* ================================================================== *)

(** A planar stand-in for the geodesic engine: latitude and longitude are
    grid coordinates, the distance is the taxicab distance and the area
    differential is the trapezoid between the edge and the line of latitude
    zero.  It serves only to evaluate the operations on concrete inputs. *)
Definition grid_engine : GeodType :=
  {| EllipsoidArea := 1000;
     MajorRadius := 10;
     Flattening := 0;
     NONE := 0;
     LATITUDE := 1;
     LONGITUDE := 2;
     DISTANCE := 4;
     AREA := 8;
     Inverse := fun lat1 lon1 lat2 lon2 _ =>
       ((Math.abs (lat2 - lat1) + Math.abs (lon2 - lon1))%real,
        ((lon2 - lon1) * (lat1 + lat2) / 2)%real);
     Direct := fun lat1 lon1 azi s _ =>
       ((lat1 + s)%real, (lon1 + azi)%real,
        (azi * (lat1 + (lat1 + s)) / 2)%real) |}.

(** A right triangle with corners (0,0), (0,10), (10,10), entered as three
    points. *)
Definition triangle : PolygonAreaT :=
  AddPoint (AddPoint (AddPoint (PolygonAreaT_ctor grid_engine false) 0 0) 0 10) 10 10.

Definition no_outputs : outputs := {| perimeter := Math.NaN; area := Math.NaN |}.

(* ================================================================== *)
(** ** Facts about the numeric model *)
(* ================================================================== *)

Module MathFacts.
Import Math.

Lemma ltb_lt (x y : real) : (x <? y)%real = true <-> (x < y)%real.
Proof.
  destruct x as [a|], y as [b|]; simpl; try (split; [discriminate | tauto]).
  rewrite Qlt_alt. destruct (a ?= b)%Q; split; congruence.
Qed.

Lemma leb_le (x y : real) : (x <=? y)%real = true <-> (x <= y)%real.
Proof.
  destruct x as [a|], y as [b|]; simpl; try (split; [discriminate | tauto]).
  rewrite Qle_alt. destruct (a ?= b)%Q; split; congruence.
Qed.

Lemma gtb_lt (x y : real) : (x >? y)%real = true <-> (y < x)%real.
Proof. apply ltb_lt. Qed.

Lemma geb_le (x y : real) : (x >=? y)%real = true <-> (y <= x)%real.
Proof. apply leb_le. Qed.

(** No number is both below zero and at least zero; in particular the two
    sign tests of the detector exclude each other on one longitude. *)
Lemma lt_not_le (x y : real) : (x < y)%real -> (y <= x)%real -> False.
Proof. destruct x, y; simpl; try tauto. intros; lra. Qed.

Lemma ltb_geb_false (x y : real) : ((x <? y) && (x >=? y))%real = false.
Proof.
  destruct (x <? y)%real eqn:E1, (x >=? y)%real eqn:E2; try reflexivity.
  apply ltb_lt in E1. apply geb_le in E2. destruct (lt_not_le _ _ E1 E2).
Qed.

Lemma inject_Z_minus (x y : Z) : inject_Z (x - y) = (inject_Z x - inject_Z y)%Q.
Proof. unfold Z.sub. rewrite inject_Z_plus, inject_Z_opp. reflexivity. Qed.

Lemma inject_Z_between (k : Z) : (-1 < inject_Z k)%Q -> (inject_Z k < 1)%Q -> k = 0%Z.
Proof.
  intros H1 H2.
  change (-1)%Q with (inject_Z (-1)) in H1. change 1%Q with (inject_Z 1) in H2.
  rewrite <- Zlt_Qlt in H1, H2. lia.
Qed.

(** Two representatives of one class modulo 360 that lie in one
    half-open window of width 360 use the same multiple. *)
Lemma window_unique (lo d : Q) (k1 k2 : Z) :
  (lo <= d - 360 * inject_Z k1)%Q -> (d - 360 * inject_Z k1 < lo + 360)%Q ->
  (lo <= d - 360 * inject_Z k2)%Q -> (d - 360 * inject_Z k2 < lo + 360)%Q ->
  k1 = k2.
Proof.
  intros A1 A2 B1 B2.
  assert (E : (k1 - k2)%Z = 0%Z).
  { apply inject_Z_between; rewrite inject_Z_minus; lra. }
  lia.
Qed.

Lemma window_unique' (hi d : Q) (k1 k2 : Z) :
  (hi - 360 < d - 360 * inject_Z k1)%Q -> (d - 360 * inject_Z k1 <= hi)%Q ->
  (hi - 360 < d - 360 * inject_Z k2)%Q -> (d - 360 * inject_Z k2 <= hi)%Q ->
  k1 = k2.
Proof.
  intros A1 A2 B1 B2.
  assert (E : (k1 - k2)%Z = 0%Z).
  { apply inject_Z_between; rewrite inject_Z_minus; lra. }
  lia.
Qed.

Lemma wrap_lo_window (a : Q) : (-180 <= wrap_lo a < 180)%Q.
Proof.
  unfold wrap_lo.
  pose proof (Qfloor_le ((a + 180) / 360)) as H1.
  pose proof (Qlt_floor ((a + 180) / 360)) as H2.
  rewrite inject_Z_plus in H2. change (inject_Z 1) with 1%Q in H2.
  assert (E : (a + 180 == 360 * ((a + 180) / 360))%Q) by (field; discriminate).
  set (k := inject_Z (Qfloor ((a + 180) / 360))) in *.
  set (q := ((a + 180) / 360)%Q) in *.
  split; lra.
Qed.

Lemma wrap_hi_window (d : Q) : (-180 < wrap_hi d <= 180)%Q.
Proof.
  unfold wrap_hi.
  pose proof (Qle_ceiling ((d - 180) / 360)) as H1.
  pose proof (Qceiling_lt ((d - 180) / 360)) as H2.
  rewrite inject_Z_minus in H2. change (inject_Z 1) with 1%Q in H2.
  assert (E : (d - 180 == 360 * ((d - 180) / 360))%Q) by (field; discriminate).
  set (k := inject_Z (Qceiling ((d - 180) / 360))) in *.
  set (q := ((d - 180) / 360)%Q) in *.
  split; lra.
Qed.

(** A longitude already in [-180, 180) is left as it is. *)
Lemma wrap_lo_fixed (a : Q) : (-180 <= a < 180)%Q -> (wrap_lo a == a)%Q.
Proof.
  intros [A1 A2]. destruct (wrap_lo_window a) as [W1 W2]. unfold wrap_lo in *.
  assert (K : Qfloor ((a + 180) / 360) = 0%Z).
  { apply window_unique with (lo := (-180)%Q) (d := a);
      change (inject_Z 0) with 0%Q; lra. }
  rewrite K. change (inject_Z 0) with 0%Q. lra.
Qed.

Lemma wrap_hi_comp (d d' : Q) : (d == d')%Q -> (wrap_hi d == wrap_hi d')%Q.
Proof.
  intros E. unfold wrap_hi.
  assert (K : Qceiling ((d - 180) / 360) = Qceiling ((d' - 180) / 360))
    by (apply Qceiling_comp; rewrite E; reflexivity).
  rewrite K, E. reflexivity.
Qed.

(** [wrap_hi d] is the only member of the class of [d] in (-180, 180]. *)
Lemma wrap_hi_unique (d r : Q) (k : Z) :
  (r == d - 360 * inject_Z k)%Q -> (-180 < r <= 180)%Q -> (wrap_hi d == r)%Q.
Proof.
  intros E [R1 R2]. destruct (wrap_hi_window d) as [W1 W2].
  unfold wrap_hi in *.
  assert (K : Qceiling ((d - 180) / 360) = k).
  { apply window_unique' with (hi := 180%Q) (d := d); lra. }
  rewrite K. lra.
Qed.

(** The model of [AngNormalize] does what the specification says: the
    result lies in [-180, 180). *)
Lemma AngNormalize_range (a : Q) :
  exists r, AngNormalize (Num a) = Num r /\ (-180 <= r < 180)%Q.
Proof. eexists; split; [reflexivity | apply wrap_lo_window]. Qed.

(** The model of [AngDiff] does what the specification says: the result
    lies in (-180, 180]. *)
Lemma AngDiff_range (a b : Q) :
  exists r, AngDiff (Num a) (Num b) = Num r /\ (-180 < r <= 180)%Q.
Proof. eexists; split; [reflexivity | apply wrap_hi_window]. Qed.

(** Normalizing the two longitudes first does not change their
    difference. *)
Lemma wrap_hi_wrap_lo (a b : Q) :
  (wrap_hi (wrap_lo b - wrap_lo a) == wrap_hi (b - a))%Q.
Proof.
  apply wrap_hi_unique
    with (k := (Qceiling ((b - a - 180) / 360)
                - (Qfloor ((b + 180) / 360) - Qfloor ((a + 180) / 360)))%Z).
  - unfold wrap_hi, wrap_lo. rewrite !inject_Z_minus.
    set (kb := inject_Z (Qfloor ((b + 180) / 360))).
    set (ka := inject_Z (Qfloor ((a + 180) / 360))).
    set (c := inject_Z (Qceiling ((b - a - 180) / 360))).
    ring.
  - apply wrap_hi_window.
Qed.

(** Swapping the operands negates the difference, except at 180. *)
Lemma wrap_hi_opp (d : Q) :
  ~ (wrap_hi d == 180)%Q -> (wrap_hi (- d) == - wrap_hi d)%Q.
Proof.
  intros N. destruct (wrap_hi_window d) as [W1 W2].
  apply wrap_hi_unique with (k := (- Qceiling ((d - 180) / 360))%Z).
  - unfold wrap_hi. rewrite inject_Z_opp.
    set (c := inject_Z (Qceiling ((d - 180) / 360))). ring.
  - split; [| lra].
    destruct (Qlt_le_dec (wrap_hi d) 180) as [L|G]; [lra|].
    exfalso. apply N. lra.
Qed.

End MathFacts.

(* ================================================================== *)
(** ** The meridian-crossing detector: properties *)
(* ================================================================== *)

Module TransitFacts.
Import Math MathFacts.

(** The detector with the three tests named. *)
Lemma transit_unfold (lon1 lon2 : real) :
  transit lon1 lon2 =
  let n1 := AngNormalize lon1 in
  let n2 := AngNormalize lon2 in
  let lon12 := AngDiff n1 n2 in
  if ((n1 <? 0) && (n2 >=? 0) && (lon12 >? 0))%real then 1
  else if ((n2 <? 0) && (n1 >=? 0) && (lon12 <? 0))%real then -1 else 0.
Proof. reflexivity. Qed.

Lemma and3_true (a b c : bool) :
  a && b && c = true <-> a = true /\ b = true /\ c = true.
Proof. destruct a, b, c; simpl; intuition congruence. Qed.

Lemma east_test (n1 n2 d : real) :
  ((n1 <? 0) && (n2 >=? 0) && (d >? 0))%real = true <->
  (n1 < 0)%real /\ (0 <= n2)%real /\ (0 < d)%real.
Proof. rewrite and3_true, ltb_lt, geb_le, gtb_lt. tauto. Qed.

Lemma west_test (n1 n2 d : real) :
  ((n2 <? 0) && (n1 >=? 0) && (d <? 0))%real = true <->
  (n2 < 0)%real /\ (0 <= n1)%real /\ (d < 0)%real.
Proof. rewrite and3_true, !ltb_lt, geb_le. tauto. Qed.

(** The result is one of -1, 0, +1. *)
Lemma transit_values (lon1 lon2 : real) :
  transit lon1 lon2 = 1 \/ transit lon1 lon2 = -1 \/ transit lon1 lon2 = 0.
Proof.
  rewrite transit_unfold; cbv zeta.
  repeat match goal with |- context [if ?b then _ else _] => destruct b end; auto.
Qed.

(** A result of +1 needs a negative first longitude, whatever the
    difference is. *)
Lemma transit_east_inv (lon1 lon2 : real) :
  transit lon1 lon2 = 1 -> (AngNormalize lon1 < 0)%real.
Proof.
  rewrite transit_unfold; cbv zeta.
  match goal with |- (if ?c then _ else _) = _ -> _ => destruct c eqn:E end.
  - intros _. apply east_test in E. tauto.
  - match goal with |- (if ?c then _ else _) = _ -> _ => destruct c end;
      discriminate.
Qed.

(** A NaN longitude never counts as a crossing. *)
Lemma transit_NaN_r (lon : real) : transit lon NaN = 0.
Proof.
  rewrite transit_unfold; cbv zeta.
  destruct (AngNormalize lon) as [w|]; [| reflexivity].
  change (AngNormalize NaN) with NaN. change (AngDiff (Num w) NaN) with NaN.
  destruct (Num w <? 0)%real, (Num w >=? 0)%real; reflexivity.
Qed.

Lemma transit_NaN_l (lon : real) : transit NaN lon = 0.
Proof.
  rewrite transit_unfold; cbv zeta.
  destruct (AngNormalize lon) as [w|]; [| reflexivity].
  change (AngNormalize NaN) with NaN. change (AngDiff NaN (Num w)) with NaN.
  destruct (Num w <? 0)%real, (Num w >=? 0)%real; reflexivity.
Qed.

(** The sign tests on a difference and on its opposite. *)
Lemma ltb_opp (d d' : Q) :
  (d' == - d)%Q -> (Num d' <? 0)%real = (Num d >? 0)%real.
Proof.
  intros E. apply eq_true_iff_eq. rewrite ltb_lt, gtb_lt. simpl.
  change (inject_Z 0) with 0%Q. split; intros; lra.
Qed.

Lemma gtb_opp (d d' : Q) :
  (d' == - d)%Q -> (Num d' >? 0)%real = (Num d <? 0)%real.
Proof.
  intros E. apply eq_true_iff_eq. rewrite ltb_lt, gtb_lt. simpl.
  change (inject_Z 0) with 0%Q. split; intros; lra.
Qed.

(** The difference of two longitudes, taken after normalizing them or
    before, is the same number. *)
Lemma AngDiff_AngNormalize (a b : Q) :
  exists d d',
    AngDiff (AngNormalize (Num a)) (AngNormalize (Num b)) = Num d /\
    AngDiff (Num a) (Num b) = Num d' /\ (d == d')%Q.
Proof.
  do 2 eexists. split; [reflexivity|]. split; [reflexivity|].
  apply wrap_hi_wrap_lo.
Qed.

Lemma AngDiff_swap (a b : Q) :
  ~ (wrap_hi (b - a) == 180)%Q -> (wrap_hi (a - b) == - wrap_hi (b - a))%Q.
Proof.
  intros N. rewrite <- (wrap_hi_opp _ N).
  apply wrap_hi_comp. ring.
Qed.

End TransitFacts.

Section TransitClaims.
Import Math MathFacts TransitFacts.

(** C1, as the specification states it, does not hold: the detector does
    not return +1 for the pair (179, -179). *)
Lemma transit_antimeridian_values_fail :
  ~ (transit 179 (-179) = 1 /\ transit (-179) 179 = -1 /\
     transit 10 20 = 0 /\ transit (-10) 10 = 0).
Proof. intros [H _]. vm_compute in H. discriminate. Qed.

(** C1 (amended): the detector reports crossings of the prime meridian.
    Transit(179, -179) = 0, Transit(-179, 179) = 0, Transit(10, 20) = 0 and
    Transit(-10, 10) = +1. *)
Theorem transit_concrete_values :
  transit 179 (-179) = 0 /\ transit (-179) 179 = 0 /\
  transit 10 20 = 0 /\ transit (-10) 10 = 1.
Proof. vm_compute. repeat split. Qed.

(** C2: for every pair of longitudes, with both normalized to [-180, 180)
    and [lon12] their signed difference in (-180, 180], the detector returns
    +1 if [lon1 < 0 <= lon2] and [lon12 > 0], -1 if [lon2 < 0 <= lon1] and
    [lon12 < 0], and 0 otherwise: its result is the one value the
    specification's rule allows. *)
Theorem transit_meets_spec :
  (forall a : Q, exists r, AngNormalize (Num a) = Num r /\ (-180 <= r < 180)%Q) /\
  (forall a b : Q, exists r, AngDiff (Num a) (Num b) = Num r /\ (-180 < r <= 180)%Q) /\
  (forall (lon1 lon2 : real) (z : Z),
      Transit_spec lon1 lon2 z <-> transit lon1 lon2 = z).
Proof.
  split; [exact AngNormalize_range|]. split; [exact AngDiff_range|].
  intros lon1 lon2 z. rewrite transit_unfold; cbv zeta. split.
  - intros H. destruct H as [n1 n2 d H1 H2 H3 | n1 n2 d H1 H2 H3 | n1 n2 d HE HW].
    + assert (E : ((n1 <? 0) && (n2 >=? 0) && (d >? 0))%real = true)
        by (apply east_test; auto).
      subst n1 n2 d. rewrite E. reflexivity.
    + assert (E : ((n1 <? 0) && (n2 >=? 0) && (d >? 0))%real = false).
      { apply not_true_is_false. intros T. apply east_test in T.
        destruct T as [T _]. exact (lt_not_le _ _ T H2). }
      assert (W : ((n2 <? 0) && (n1 >=? 0) && (d <? 0))%real = true)
        by (apply west_test; auto).
      subst n1 n2 d. rewrite E, W. reflexivity.
    + assert (E : ((n1 <? 0) && (n2 >=? 0) && (d >? 0))%real = false).
      { apply not_true_is_false. intros T. apply east_test in T. auto. }
      assert (W : ((n2 <? 0) && (n1 >=? 0) && (d <? 0))%real = false).
      { apply not_true_is_false. intros T. apply west_test in T. auto. }
      subst n1 n2 d. rewrite E, W. reflexivity.
  - match goal with |- (if ?c then _ else _) = _ -> _ => destruct c eqn:E end.
    + intros <-. apply east_test in E. destruct E as (H1 & H2 & H3).
      apply Transit_east; assumption.
    + match goal with |- (if ?c then _ else _) = _ -> _ => destruct c eqn:W end.
      * intros <-. apply west_test in W. destruct W as (H1 & H2 & H3).
        apply Transit_west; assumption.
      * intros <-. apply Transit_none.
        -- intros T. apply east_test in T. congruence.
        -- intros T. apply west_test in T. congruence.
Qed.

(** C9: for every pair of longitudes whose angular difference
    AngDiff(lon1, lon2) is not exactly 180 degrees,
    transit(lon2, lon1) = -transit(lon1, lon2); at a difference of exactly
    180 degrees this can fail: transit(-90, 90) = +1 and
    transit(90, -90) = 0. *)
Theorem transit_antisymmetric :
  (forall lon1 lon2 : real,
      ~ (AngDiff lon1 lon2 == 180)%real ->
      transit lon2 lon1 = - transit lon1 lon2) /\
  ((AngDiff (-90) 90 == 180)%real /\
   transit (-90) 90 = 1 /\ transit 90 (-90) = 0).
Proof.
  split; [| vm_compute; repeat split].
  intros lon1 lon2 N.
  destruct lon1 as [a|], lon2 as [b|];
    rewrite ?transit_NaN_l, ?transit_NaN_r; try reflexivity.
  rewrite !transit_unfold; cbv zeta.
  - assert (D : (wrap_hi (wrap_lo a - wrap_lo b)
                 == - wrap_hi (wrap_lo b - wrap_lo a))%Q).
    { apply AngDiff_swap. intros E. apply N. simpl.
      rewrite <- wrap_hi_wrap_lo. exact E. }
    simpl AngNormalize. unfold AngDiff, lift2.
    rewrite (ltb_opp _ _ D), (gtb_opp _ _ D).
    pose proof (ltb_geb_false (Num (wrap_lo a)) 0) as Xa.
    pose proof (ltb_geb_false (Num (wrap_lo b)) 0) as Xb.
    destruct (Num (wrap_lo a) <? 0)%real, (Num (wrap_lo a) >=? 0)%real,
             (Num (wrap_lo b) <? 0)%real, (Num (wrap_lo b) >=? 0)%real,
             (Num (wrap_hi (wrap_lo b - wrap_lo a)) <? 0)%real,
             (Num (wrap_hi (wrap_lo b - wrap_lo a)) >? 0)%real;
      simpl in *; congruence.
Qed.

(** C9 at a concrete pair: the edge from -10 to 10 and its reverse. *)
Lemma transit_antisymmetric_witness :
  ~ (AngDiff (-10) 10 == 180)%real /\ transit 10 (-10) = - transit (-10) 10.
Proof.
  split.
  - intros H. vm_compute in H. discriminate.
  - apply (proj1 transit_antisymmetric).
    intros H. vm_compute in H. discriminate.
Defined.

(** C10: for every longitude, transit(lon, lon) = 0, so an edge between
    two vertices of the same longitude leaves a crossing count as it is. *)
Theorem transit_same_longitude :
  forall lon : real,
    transit lon lon = 0 /\
    (forall crossings : Z, crossings + transit lon lon = crossings).
Proof.
  intros lon.
  assert (E : transit lon lon = 0).
  { rewrite transit_unfold; cbv zeta.
    pose proof (ltb_geb_false (AngNormalize lon) 0) as X.
    destruct (AngNormalize lon <? 0)%real, (AngNormalize lon >=? 0)%real;
      simpl in *; congruence. }
  split; [exact E | intros c; rewrite E; lia].
Qed.

End TransitClaims.

(* ================================================================== *)
(** ** Reduction of the area: properties *)
(* ================================================================== *)

Module AreaFacts.
Import Math MathFacts.



Lemma isnan_false (x : real) : isnan x = false -> exists a, x = Num a.
Proof. destruct x; [eauto | discriminate]. Qed.


(** The unsigned report of a number within half the surface area is not
    negative. *)
Lemma report_area_nonneg (a0 r : Q) :
  (- (a0 / 2) <= r <= a0 / 2)%Q ->
  (0 <= report_area (Num a0) false (Num r))%real.
Proof.
  intros [B1 B2]. unfold report_area.
  assert (H2 : (a0 / 2 == a0 * (1 # 2))%Q) by field.
  destruct (Num r <? 0)%real eqn:L.
  - apply ltb_lt in L. unfold lt, of_Z in L. change (inject_Z 0) with 0%Q in L.
    unfold le, of_Z, sub, abs, lift1, lift2. change (inject_Z 0) with 0%Q.
    rewrite (Qabs_neg r) by lra. lra.
  - assert (G : ~ (r < 0)%Q).
    { intros X. apply not_true_iff_false in L. apply L. apply ltb_lt. exact X. }
    unfold le, of_Z. change (inject_Z 0) with 0%Q. lra.
Qed.



End AreaFacts.

(* ================================================================== *)
(** ** The polygon accumulator: properties *)
(* ================================================================== *)

Module PolygonFacts.
Import Math.


(** A preview call gives the instance back as it received it. *)
Lemma call_preview_state (c : preview) (o : outputs) (p : PolygonAreaT) :
  snd (call_preview c o p) = p.
Proof. destruct c; reflexivity. Qed.

Lemma call_previews_state (cs : list preview) :
  forall (o : outputs) (p : PolygonAreaT), snd (call_previews cs o p) = p.
Proof.
  induction cs as [| c cs IH]; intros o p; simpl.
  - reflexivity.
  - destruct (call_preview c o p) as [r p1] eqn:E1.
    assert (P1 : p1 = p) by (rewrite <- (call_preview_state c o p), E1; reflexivity).
    destruct (call_previews cs (snd r) p1) as [rs p2] eqn:E2.
    simpl. rewrite <- P1, <- (IH (snd r) p1), E2. reflexivity.
Qed.

(** A preview call made again, with the output variables as the first call
    left them, gives the same result. *)
Lemma TestPoint_again (p : PolygonAreaT) (lat lon : real) (reverse sign : bool)
  (o : outputs) :
  TestPoint p lat lon reverse sign (snd (TestPoint p lat lon reverse sign o))
  = TestPoint p lat lon reverse sign o.
Proof.
  unfold TestPoint.
  destruct (_num p =? 0); [destruct (_polyline p); reflexivity|].
  destruct (Inverse _ (_lat1 p) _ _ _ _) as [s12 S12].
  destruct (_polyline p); [reflexivity|].
  destruct (Inverse _ lat _ _ _ _) as [s12c S12c]. reflexivity.
Qed.

Lemma TestEdge_again (p : PolygonAreaT) (azi s : real) (reverse sign : bool)
  (o : outputs) :
  TestEdge p azi s reverse sign (snd (TestEdge p azi s reverse sign o))
  = TestEdge p azi s reverse sign o.
Proof.
  unfold TestEdge.
  destruct (_num p =? 0); [destruct (_polyline p); reflexivity|].
  destruct (Direct _ _ _ _ _ _) as [[lat lon] S12].
  destruct (_polyline p); [reflexivity|].
  destruct (Inverse _ _ _ _ _ _) as [s12c S12c]. reflexivity.
Qed.

End PolygonFacts.

Section PolygonClaims.
Import Math MathFacts AreaFacts PolygonFacts.

(** C3: any run of TestPoint and TestEdge calls, with any arguments and in
    any order, leaves the instance as it was (vertex count, crossing count,
    both accumulators, first and current vertex), so that Compute afterwards
    returns what it returns without them; and a preview call repeated with
    the same input returns the same result. *)
Theorem previews_do_not_mutate :
  forall (cs : list preview) (o : outputs) (p : PolygonAreaT),
    let p' := snd (call_previews cs o p) in
    p' = p /\
    (_num p' = _num p /\ _crossings p' = _crossings p /\
     _perimetersum p' = _perimetersum p /\ _areasum p' = _areasum p /\
     (_lat0 p', _lon0 p') = (_lat0 p, _lon0 p) /\
     (_lat1 p', _lon1 p') = (_lat1 p, _lon1 p)) /\
    (forall (reverse sign : bool) (o' : outputs),
        fst (call_Compute reverse sign o' p') = Compute p reverse sign o') /\
    (forall (c : preview) (o' : outputs),
        let '(r1, p1) := call_preview c o' p' in
        let '(r2, p2) := call_preview c (snd r1) p1 in
        r2 = r1 /\ p2 = p /\ r1 = fst (call_preview c o' p)).
Proof.
  intros cs o p p'.
  assert (E : p' = p) by apply call_previews_state.
  rewrite E. split; [reflexivity|]. split; [repeat split|].
  split; [reflexivity|].
  intros c o'. destruct c as [lat lon reverse sign | azi s reverse sign]; simpl.
  - rewrite TestPoint_again. auto.
  - rewrite TestEdge_again. auto.
Qed.



(** C5: with no vertex added, AddEdge(azimuth, distance) does nothing for
    all azimuths and distances: the whole state is as before, and the call
    has no failure outcome. *)
Theorem AddEdge_without_vertex :
  forall (p : PolygonAreaT) (azi s : real), _num p = 0 -> AddEdge p azi s = p.
Proof.
  intros p azi s H. unfold AddEdge. rewrite H. reflexivity.
Qed.

(** C5 on a fresh instance. *)
Lemma AddEdge_without_vertex_witness :
  AddEdge (PolygonAreaT_ctor grid_engine false) 90 5
  = PolygonAreaT_ctor grid_engine false.
Proof.
  apply (AddEdge_without_vertex (PolygonAreaT_ctor grid_engine false) 90 5).
  reflexivity.
Defined.

(** C6: with fewer than 2 vertices, and for all values of reverse and
    sign, Compute returns the stored vertex count with perimeter 0 and, in
    polygon mode, area 0; after Clear it returns (0, 0, 0) and after one
    AddPoint following it (1, 0, 0). *)
Theorem Compute_degenerate :
  forall (p : PolygonAreaT) (reverse sign : bool) (o : outputs),
    (_num p < 2 ->
     fst (Compute p reverse sign o) = _num p /\
     perimeter (snd (Compute p reverse sign o)) = 0 /\
     (_polyline p = false -> area (snd (Compute p reverse sign o)) = 0) /\
     (_polyline p = true -> area (snd (Compute p reverse sign o)) = area o)) /\
    (_polyline p = false ->
     Compute (Clear p) reverse sign o = (0, {| perimeter := 0; area := 0 |}) /\
     forall lat lon : real,
       Compute (AddPoint (Clear p) lat lon) reverse sign o
       = (1, {| perimeter := 0; area := 0 |})).
Proof.
  intros p reverse sign o. split.
  - intros H. unfold Compute.
    assert (E : (_num p <? 2) = true) by (apply Z.ltb_lt; exact H).
    rewrite E. simpl. repeat split; intros ->; reflexivity.
  - intros Hpoly. unfold Compute, AddPoint, Clear; simpl. rewrite Hpoly.
    split; reflexivity.
Qed.

(** C6 on a fresh polygon and on one holding a single point. *)
Lemma Compute_degenerate_witness :
  Compute (Clear (PolygonAreaT_ctor grid_engine false)) true false no_outputs
  = (0, {| perimeter := 0; area := 0 |}) /\
  Compute (AddPoint (Clear triangle) 3 4) false true no_outputs
  = (1, {| perimeter := 0; area := 0 |}) /\
  fst (Compute (AddPoint (Clear triangle) 3 4) false true no_outputs)
  = _num (AddPoint (Clear triangle) 3 4).
Proof.
  split; [| split].
  - apply (proj2 (Compute_degenerate (PolygonAreaT_ctor grid_engine false)
                                     true false no_outputs)).
    reflexivity.
  - apply (proj2 (Compute_degenerate triangle false true no_outputs)).
    reflexivity.
  - apply (proj1 (Compute_degenerate (AddPoint (Clear triangle) 3 4)
                                     false true no_outputs)).
    vm_compute. reflexivity.
Defined.

(** C7: after Clear, in whatever state the instance was, the vertex count
    is 0, the crossing count is 0, both accumulators are 0 and the four
    cursor fields are NaN; the engine, the surface area, the mode and the
    mask are kept.  Clear is a total function: it has no failure outcome. *)
Theorem Clear_resets :
  forall p : PolygonAreaT,
    _num (Clear p) = 0 /\ _crossings (Clear p) = 0 /\
    _perimetersum (Clear p) = Accumulator.of_real 0 /\
    _areasum (Clear p) = Accumulator.of_real 0 /\
    Accumulator.Value (_perimetersum (Clear p)) = 0 /\
    Accumulator.Value (_areasum (Clear p)) = 0 /\
    (_lat0 (Clear p) = NaN /\ _lon0 (Clear p) = NaN /\
     _lat1 (Clear p) = NaN /\ _lon1 (Clear p) = NaN) /\
    (isnan (_lat0 (Clear p)) && isnan (_lon0 (Clear p)) &&
     isnan (_lat1 (Clear p)) && isnan (_lon1 (Clear p)) = true) /\
    (_earth (Clear p) = _earth p /\ _area0 (Clear p) = _area0 p /\
     _polyline (Clear p) = _polyline p /\ _mask (Clear p) = _mask p).
Proof. intros p. simpl. repeat split. Qed.

(** C8: for every state and all arguments, the deprecated TestCompute
    returns the same value and writes the same perimeter and area as
    TestPoint with the same arguments. *)
Theorem TestCompute_is_TestPoint :
  forall (p : PolygonAreaT) (lat lon : real) (reverse sign : bool) (o : outputs),
    TestCompute p lat lon reverse sign o = TestPoint p lat lon reverse sign o /\
    fst (TestCompute p lat lon reverse sign o)
    = fst (TestPoint p lat lon reverse sign o) /\
    perimeter (snd (TestCompute p lat lon reverse sign o))
    = perimeter (snd (TestPoint p lat lon reverse sign o)) /\
    area (snd (TestCompute p lat lon reverse sign o))
    = area (snd (TestPoint p lat lon reverse sign o)).
Proof. intros. unfold TestCompute. repeat split. Qed.

End PolygonClaims.

(* ================================================================== *)
(** ** Further properties of the detector *)
(* ================================================================== *)

Module TransitMore.
Import Math MathFacts TransitFacts.

(** When the detector answers +1 and when -1, on the normalized
    longitudes and their difference. *)
Lemma transit_east_iff (lon1 lon2 : real) :
  transit lon1 lon2 = 1 <->
  (AngNormalize lon1 < 0)%real /\ (0 <= AngNormalize lon2)%real /\
  (0 < AngDiff (AngNormalize lon1) (AngNormalize lon2))%real.
Proof.
  rewrite <- east_test, transit_unfold; cbv zeta.
  repeat match goal with
         | |- context [if ?c then _ else _] => destruct c
         end; split; intros; congruence.
Qed.

Lemma transit_west_iff (lon1 lon2 : real) :
  transit lon1 lon2 = -1 <->
  (AngNormalize lon2 < 0)%real /\ (0 <= AngNormalize lon1)%real /\
  (AngDiff (AngNormalize lon1) (AngNormalize lon2) < 0)%real.
Proof.
  rewrite <- west_test, transit_unfold; cbv zeta.
  pose proof (ltb_geb_false (AngNormalize lon1) 0) as X.
  destruct (AngNormalize lon1 <? 0)%real, (AngNormalize lon1 >=? 0)%real,
           (AngNormalize lon2 <? 0)%real, (AngNormalize lon2 >=? 0)%real,
           (AngDiff (AngNormalize lon1) (AngNormalize lon2) <? 0)%real,
           (AngDiff (AngNormalize lon1) (AngNormalize lon2) >? 0)%real;
    simpl in *; split; intros; congruence.
Qed.

(** The difference of two longitudes of [-180, 180): the plain difference,
    moved by one turn when it leaves (-180, 180]. *)
Lemma wrap_hi_cases (d : Q) :
  (-360 < d < 360)%Q ->
  ((-180 < d <= 180)%Q /\ (wrap_hi d == d)%Q) \/
  ((180 < d)%Q /\ (wrap_hi d == d - 360)%Q) \/
  ((d <= -180)%Q /\ (wrap_hi d == d + 360)%Q).
Proof.
  intros [D1 D2].
  destruct (Qlt_le_dec 180 d) as [Hi|Hi].
  - right; left. split; [exact Hi|].
    apply wrap_hi_unique with (k := 1%Z);
      change (inject_Z 1) with 1%Q; [ring | split; lra].
  - destruct (Qlt_le_dec (-180) d) as [Lo|Lo].
    + left. split; [split; assumption|].
      apply wrap_hi_unique with (k := 0%Z);
        change (inject_Z 0) with 0%Q; [ring | split; lra].
    + right; right. split; [exact Lo|].
      apply wrap_hi_unique with (k := (-1)%Z);
        change (inject_Z (-1)) with (-1)%Q; [ring | split; lra].
Qed.

End TransitMore.

Section TransitExtras.
Import Math MathFacts TransitFacts TransitMore.

(** X2: two longitudes whose normalized values lie on the same side of
    zero (both negative, or both at least zero) are never a crossing,
    whatever their difference. *)
Theorem transit_same_side :
  forall lon1 lon2 : real,
    ((AngNormalize lon1 < 0)%real /\ (AngNormalize lon2 < 0)%real) \/
    ((0 <= AngNormalize lon1)%real /\ (0 <= AngNormalize lon2)%real) ->
    transit lon1 lon2 = 0.
Proof.
  intros lon1 lon2 H.
  destruct (transit_values lon1 lon2) as [E | [E | E]]; [| | exact E]; exfalso.
  - apply transit_east_iff in E. destruct E as (A & B & _).
    destruct H as [[_ H2] | [H1 _]]; eauto using lt_not_le.
  - apply transit_west_iff in E. destruct E as (A & B & _).
    destruct H as [[H1 _] | [_ H2]]; eauto using lt_not_le.
Qed.

(** X2 at the pairs (10, 20) and (-30, -170). *)
Lemma transit_same_side_witness :
  transit 10 20 = 0 /\ transit (-30) (-170) = 0.
Proof.
  split; apply transit_same_side.
  - right. split; vm_compute; discriminate.
  - left. split; vm_compute; reflexivity.
Defined.

(** X3: for longitudes already in [-180, 180), the detector answers +1
    exactly when [lon1 < 0 <= lon2] and [lon2 - lon1 <= 180], and -1 exactly
    when [lon2 < 0 <= lon1] and [lon1 - lon2 < 180]: the bound is inclusive
    eastwards and strict westwards. *)
Theorem transit_in_range :
  forall a b : Q,
    (-180 <= a < 180)%Q -> (-180 <= b < 180)%Q ->
    (transit (Num a) (Num b) = 1 <-> (a < 0 /\ 0 <= b /\ b - a <= 180)%Q) /\
    (transit (Num a) (Num b) = -1 <-> (b < 0 /\ 0 <= a /\ a - b < 180)%Q).
Proof.
  intros a b Ha Hb.
  pose proof (wrap_lo_fixed a Ha) as Na. pose proof (wrap_lo_fixed b Hb) as Nb.
  pose proof (wrap_hi_wrap_lo a b) as D.
  assert (R : (-360 < b - a < 360)%Q) by (split; lra).
  rewrite transit_east_iff, transit_west_iff.
  unfold AngNormalize, AngDiff, lift1, lift2, lt, le, of_Z.
  change (inject_Z 0) with 0%Q.
  destruct (wrap_hi_cases (b - a) R) as [[C E] | [[C E] | [C E]]];
    (split; split; intros (H1 & H2 & H3); repeat split; lra).
Qed.

(** X3 at the pair (-90, 90), whose difference is exactly 180, and at its
    reverse. *)
Lemma transit_in_range_witness :
  transit (Num (-90)) (Num 90) = 1 /\ ~ transit (Num 90) (Num (-90)) = -1.
Proof.
  assert (Ha : (-180 <= -90 < 180)%Q) by (split; [discriminate | reflexivity]).
  assert (Hb : (-180 <= 90 < 180)%Q) by (split; [discriminate | reflexivity]).
  split.
  - apply (proj1 (transit_in_range (-90) 90 Ha Hb)).
    split; [reflexivity | split; discriminate].
  - intros H. apply (proj2 (transit_in_range 90 (-90) Hb Ha)) in H.
    destruct H as (_ & _ & H). vm_compute in H. discriminate.
Defined.

(** X4: for longitudes already in [-180, 180) that are more than 180
    apart, the short way between them passes the antimeridian and not the
    prime meridian, and the detector answers 0. *)
Theorem transit_skips_antimeridian :
  forall a b : Q,
    (-180 <= a < 180)%Q -> (-180 <= b < 180)%Q ->
    (180 < b - a \/ 180 < a - b)%Q ->
    transit (Num a) (Num b) = 0.
Proof.
  intros a b Ha Hb Far.
  pose proof (wrap_lo_fixed a Ha) as Na. pose proof (wrap_lo_fixed b Hb) as Nb.
  pose proof (wrap_hi_wrap_lo a b) as D.
  assert (R : (-360 < b - a < 360)%Q) by (split; lra).
  destruct (transit_values (Num a) (Num b)) as [E | [E | E]]; [| | exact E];
    exfalso.
  - apply transit_east_iff in E. revert E.
    unfold AngNormalize, AngDiff, lift1, lift2, lt, le, of_Z.
    change (inject_Z 0) with 0%Q. intros (H1 & H2 & H3).
    destruct (wrap_hi_cases (b - a) R) as [[C E] | [[C E] | [C E]]];
      destruct Far; lra.
  - apply transit_west_iff in E. revert E.
    unfold AngNormalize, AngDiff, lift1, lift2, lt, le, of_Z.
    change (inject_Z 0) with 0%Q. intros (H1 & H2 & H3).
    destruct (wrap_hi_cases (b - a) R) as [[C E] | [[C E] | [C E]]];
      destruct Far; lra.
Qed.

(** X4 at the pairs (179, -179) and (-179, 179). *)
Lemma transit_skips_antimeridian_witness :
  transit (Num 179) (Num (-179)) = 0 /\ transit (Num (-179)) (Num 179) = 0.
Proof.
  assert (Ha : (-180 <= 179 < 180)%Q) by (split; [discriminate | reflexivity]).
  assert (Hb : (-180 <= -179 < 180)%Q) by (split; [discriminate | reflexivity]).
  split.
  - apply (transit_skips_antimeridian 179 (-179) Ha Hb). right. reflexivity.
  - apply (transit_skips_antimeridian (-179) 179 Hb Ha). left. reflexivity.
Defined.

(** X5: a NaN longitude in either position gives 0; in particular the
    cursor longitude of a cleared instance, which is NaN, is never a
    crossing with any longitude. *)
Theorem transit_NaN :
  forall (lon : real) (p : PolygonAreaT),
    transit NaN lon = 0 /\ transit lon NaN = 0 /\
    transit (_lon1 (Clear p)) lon = 0 /\ transit lon (_lon0 (Clear p)) = 0.
Proof.
  intros lon p. change (_lon1 (Clear p)) with NaN.
  change (_lon0 (Clear p)) with NaN.
  rewrite transit_NaN_l, transit_NaN_r. repeat split.
Qed.

End TransitExtras.

Section TransitRange.
Import Math TransitFacts.

(** X1: the detector never returns anything but -1, 0 or +1, for any two
    longitudes (NaN included), so one edge moves a crossing count by at most
    one. *)
Theorem transit_range :
  forall lon1 lon2 : real,
    (transit lon1 lon2 = 1 \/ transit lon1 lon2 = -1 \/ transit lon1 lon2 = 0) /\
    (forall crossings : Z,
        crossings - 1 <= crossings + transit lon1 lon2 <= crossings + 1).
Proof.
  intros lon1 lon2. pose proof (transit_values lon1 lon2) as V.
  split; [exact V | intros c; lia].
Qed.

End TransitRange.

(* ================================================================== *)
(** ** Further properties of the instance *)
(* ================================================================== *)

Module MaskFacts.

Lemma land_lor_l (a b : Z) : Z.land (Z.lor a b) a = a.
Proof.
  apply Z.bits_inj'. intros n _. rewrite Z.land_spec, Z.lor_spec.
  destruct (Z.testbit a n), (Z.testbit b n); reflexivity.
Qed.

Lemma land_lor_r (a b : Z) : Z.land (Z.lor a b) b = b.
Proof. rewrite Z.lor_comm. apply land_lor_l. Qed.

Lemma land_lor_keep (a b c : Z) : Z.land a c = c -> Z.land (Z.lor a b) c = c.
Proof.
  intros H. apply Z.bits_inj'. intros n _.
  rewrite Z.land_spec, Z.lor_spec, <- H, Z.land_spec.
  destruct (Z.testbit a n), (Z.testbit b n), (Z.testbit c n); reflexivity.
Qed.

(** Reduction modulo 2^32 keeps the bits below bit 32 and clears the
    others. *)
Lemma mod_low_bits (a i : Z) :
  0 <= i < 32 -> Z.testbit (a mod UINT_MOD) i = Z.testbit a i.
Proof.
  intros H. unfold UINT_MOD. apply Z.mod_pow2_bits_low. lia.
Qed.

Lemma mod_high_bits (a i : Z) :
  32 <= i -> Z.testbit (a mod UINT_MOD) i = false.
Proof.
  intros H. unfold UINT_MOD. apply Z.mod_pow2_bits_high. lia.
Qed.

Lemma small_high_bits (c i : Z) :
  0 <= c < UINT_MOD -> 32 <= i -> Z.testbit c i = false.
Proof.
  intros Hc Hi. rewrite <- (Z.mod_small c UINT_MOD Hc).
  apply mod_high_bits. exact Hi.
Qed.

Lemma land_mod_keep (a c : Z) :
  0 <= c < UINT_MOD -> Z.land a c = c -> Z.land (a mod UINT_MOD) c = c.
Proof.
  intros Hc H. apply Z.bits_inj'. intros n Hn. rewrite Z.land_spec.
  destruct (Z_lt_le_dec n 32) as [Lo|Hi].
  - rewrite mod_low_bits by lia. rewrite <- Z.land_spec, H. reflexivity.
  - rewrite (small_high_bits c n Hc Hi). apply andb_false_r.
Qed.

Lemma land_mod_none (a c : Z) :
  Z.land a c = 0 -> Z.land (a mod UINT_MOD) c = 0.
Proof.
  intros H. apply Z.bits_inj'. intros n Hn.
  rewrite Z.land_spec, Z.bits_0.
  destruct (Z_lt_le_dec n 32) as [Lo|Hi].
  - rewrite mod_low_bits by lia. rewrite <- Z.land_spec, H. apply Z.bits_0.
  - rewrite mod_high_bits by exact Hi. reflexivity.
Qed.

End MaskFacts.

Section InstanceExtras.
Import Math MaskFacts.

(** X6: on a freshly constructed instance and on a cleared one,
    CurrentPoint returns (NaN, NaN) ("If no points have been added, then
    NaNs are returned"). *)
Theorem CurrentPoint_empty :
  forall (earth : GeodType) (polyline : bool) (p : PolygonAreaT),
    CurrentPoint (PolygonAreaT_ctor earth polyline) = (NaN, NaN) /\
    CurrentPoint (Clear p) = (NaN, NaN) /\
    isnan (fst (CurrentPoint (Clear p))) = true /\
    isnan (snd (CurrentPoint (Clear p))) = true.
Proof. intros. repeat split. Qed.

(** X7: Clear brings an instance back to the state the constructor made:
    whatever has been accumulated, if the engine, the surface area, the mode
    and the mask are those the constructor set, the cleared instance is the
    constructed one.  Hence Clear after Clear, or after the constructor,
    changes nothing. *)
Theorem Clear_restores_constructed :
  forall (earth : GeodType) (polyline : bool) (p : PolygonAreaT),
    _earth p = earth ->
    _area0 p = EllipsoidArea earth ->
    _polyline p = polyline ->
    _mask p = _mask (PolygonAreaT_ctor earth polyline) ->
    Clear p = PolygonAreaT_ctor earth polyline /\
    Clear (Clear p) = Clear p /\
    Clear (PolygonAreaT_ctor earth polyline) = PolygonAreaT_ctor earth polyline.
Proof.
  intros earth polyline p He Ha Hp Hm.
  unfold PolygonAreaT_ctor, Clear in *; simpl in *.
  rewrite He, Ha, Hp, Hm. repeat split.
Qed.

(** X7 on the triangle: clearing it gives the instance it was built
    from. *)
Lemma Clear_restores_constructed_witness :
  Clear triangle = PolygonAreaT_ctor grid_engine false.
Proof.
  apply (Clear_restores_constructed grid_engine false triangle);
    reflexivity.
Defined.

(** X8: the mask the constructor stores is an unsigned 32-bit value
    whose bits are those of LATITUDE, LONGITUDE, DISTANCE and, in polygon
    mode, AREA (in polyline mode, NONE) below bit 32.  So each of these
    constants that fits in 32 bits is contained in the mask, and in polyline
    mode, with an empty NONE and area bits apart from the other three, the
    mask has no area bit. *)
Theorem constructor_mask :
  forall (earth : GeodType) (polyline : bool),
    let mask := _mask (PolygonAreaT_ctor earth polyline) in
    let last := if polyline then NONE earth else AREA earth in
    0 <= mask < UINT_MOD /\
    (forall i : Z, 0 <= i < 32 ->
        Z.testbit mask i
        = Z.testbit (LATITUDE earth) i || Z.testbit (LONGITUDE earth) i
          || Z.testbit (DISTANCE earth) i || Z.testbit last i) /\
    (0 <= LATITUDE earth < UINT_MOD ->
     Z.land mask (LATITUDE earth) = LATITUDE earth) /\
    (0 <= LONGITUDE earth < UINT_MOD ->
     Z.land mask (LONGITUDE earth) = LONGITUDE earth) /\
    (0 <= DISTANCE earth < UINT_MOD ->
     Z.land mask (DISTANCE earth) = DISTANCE earth) /\
    (0 <= last < UINT_MOD -> Z.land mask last = last) /\
    (polyline = true -> NONE earth = 0 ->
     Z.land (Z.lor (Z.lor (LATITUDE earth) (LONGITUDE earth)) (DISTANCE earth))
            (AREA earth) = 0 ->
     Z.land mask (AREA earth) = 0).
Proof.
  intros earth polyline mask last.
  set (full := Z.lor (Z.lor (Z.lor (LATITUDE earth) (LONGITUDE earth))
                            (DISTANCE earth)) last).
  assert (M : mask = full mod UINT_MOD) by reflexivity.
  clearbody mask. subst mask.
  split; [apply Z.mod_pos_bound; reflexivity|].
  split; [intros i Hi; rewrite mod_low_bits by exact Hi;
          unfold full; rewrite !Z.lor_spec; reflexivity|].
  split; [intros H; apply land_mod_keep; [exact H|];
          unfold full; apply land_lor_keep, land_lor_keep, land_lor_l|].
  split; [intros H; apply land_mod_keep; [exact H|];
          unfold full; apply land_lor_keep, land_lor_keep, land_lor_r|].
  split; [intros H; apply land_mod_keep; [exact H|];
          unfold full; apply land_lor_keep, land_lor_r|].
  split; [intros H; apply land_mod_keep; [exact H|];
          unfold full; apply land_lor_r|].
  intros Hp H0 Hd. apply land_mod_none.
  unfold full, last. rewrite Hp, H0, Z.lor_0_r. exact Hd.
Qed.

(** X8 on the grid engine, in both modes. *)
Lemma constructor_mask_witness :
  Z.land (_mask (PolygonAreaT_ctor grid_engine false)) (AREA grid_engine)
  = AREA grid_engine /\
  Z.land (_mask (PolygonAreaT_ctor grid_engine false)) (DISTANCE grid_engine)
  = DISTANCE grid_engine /\
  Z.land (_mask (PolygonAreaT_ctor grid_engine true)) (AREA grid_engine) = 0.
Proof.
  split; [| split].
  - apply (constructor_mask grid_engine false). vm_compute.
    split; [discriminate | reflexivity].
  - apply (constructor_mask grid_engine false). vm_compute.
    split; [discriminate | reflexivity].
  - apply (constructor_mask grid_engine true); reflexivity.
Defined.

End InstanceExtras.
